(** * portfolio-risk-mc: configuration tables and pipeline contracts

    A shallow embedding of the four source files

    - [advanced_regime_engine.py]  (3-state regime scheme, detection settings)
    - [regime_detector.py]         (4-state regime scheme)
    - [advanced_risk_engine.py]    (risk limits, monitoring thresholds)
    - [copula_garch.py]            (copula and GARCH families)

    The class-level dictionaries are embedded entry by entry.  The method
    bodies of the repository are withheld from the source tree (each one is
    a bare [pass]); operations whose behaviour is needed are modelled from
    the written specification and are marked as such. *)

From Stdlib Require Import ZArith QArith Qabs List String Bool Lia.
From Stdlib Require Import Floats.SpecFloat.
Import ListNotations.

Local Open Scope string_scope.

(** ** Python floats

    A Python [float] is an IEEE-754 binary64 number.  A literal such as
    [0.55] is written in the tables below as the rational [55 # 100] it
    spells; [Float64.of_literal] gives the double the interpreter stores for
    it, and [Float64.add] and friends are the correctly rounded
    operations. *)
Module Float64.

Definition prec : Z := 53.
Definition emax : Z := 1024.

Definition float : Type := spec_float.

Definition of_Z (m : Z) : float := binary_normalize prec emax m 0 false.

(** Numerator and denominator of the literals used here are below 2^53,
    hence exact doubles, and one correctly rounded division yields the
    double nearest to the decimal. *)
Definition of_literal (q : Q) : float :=
  SFdiv prec emax (of_Z (Qnum q)) (of_Z (Zpos (Qden q))).

Definition add : float -> float -> float := SFadd prec emax.
Definition mul : float -> float -> float := SFmul prec emax.
Definition ltb : float -> float -> bool := SFltb.
Definition leb : float -> float -> bool := SFleb.
Definition eqb : float -> float -> bool := SFeqb.

(** The exact value of a finite double. *)
Definition to_Q (x : float) : option Q :=
  match x with
  | S754_zero _ => Some 0%Q
  | S754_finite s m e =>
      Some (inject_Z (if s then Z.neg m else Z.pos m) * Qpower 2 e)%Q
  | S754_infinity _ | S754_nan => None
  end.

(** The builtin [sum]: start from [0] and add from left to right. *)
Definition sum (xs : list float) : float := fold_left add xs (of_Z 0).

(** [abs(x - target) <= tol], on exact values. *)
Definition within (tol target : Q) (x : float) : bool :=
  match to_Q x with
  | Some v => Qle_bool (Qabs (v - target)) tol
  | None => false
  end.

End Float64.

(** Exact sum of a list of rationals. *)
Definition Qsum (xs : list Q) : Q := fold_right Qplus 0%Q xs.

(** All orders in which a list can be traversed. *)
Fixpoint insertions {A : Type} (x : A) (l : list A) : list (list A) :=
  match l with
  | [] => [[x]]
  | y :: l' => (x :: l) :: map (cons y) (insertions x l')
  end.

Fixpoint orders {A : Type} (l : list A) : list (list A) :=
  match l with
  | [] => [[]]
  | x :: l' => flat_map (insertions x) (orders l')
  end.

(** Lookup in a dictionary kept as an association list in insertion order. *)
Fixpoint dict_get {A : Type} (k : string) (d : list (string * A)) : option A :=
  match d with
  | [] => None
  | (k', v) :: d' => if String.eqb k k' then Some v else dict_get k d'
  end.

Definition dict_keys {A : Type} (d : list (string * A)) : list string :=
  map fst d.

Definition dict_values {A : Type} (d : list (string * A)) : list A :=
  map snd d.

Definition mem_string (k : string) (ks : list string) : bool :=
  existsb (String.eqb k) ks.

(** ** advanced_regime_engine.py *)
Module advanced_regime_engine.

Record regime_entry := {
  probability : Q;
  volatility_threshold : Q;
  correlation_threshold : Q;
  risk_scaling : Q;
  description : string
}.

Definition REGIME_PARAMETERS : list (string * regime_entry) :=
  [ ("calm",
     {| probability := 0.55;
        volatility_threshold := 0.10;
        correlation_threshold := 0.3;
        risk_scaling := 1.0;
        description := "Normal Market Conditions" |});
    ("stress",
     {| probability := 0.30;
        volatility_threshold := 0.20;
        correlation_threshold := 0.6;
        risk_scaling := 0.7;
        description := "Elevated Market Stress" |});
    ("crisis",
     {| probability := 0.15;
        volatility_threshold := 0.35;
        correlation_threshold := 0.8;
        risk_scaling := 0.4;
        description := "Crisis Conditions" |}) ].

Record detection_config := {
  estimation_windows : list Z;
  minimum_history : Z;
  decay_factor : Q;
  confidence_threshold : Q;
  regime_persistence : Z;
  transition_smoothing : bool
}.

Definition DETECTION_CONFIG : detection_config :=
  {| estimation_windows := [21; 63; 252]%Z;
     minimum_history := 252;
     decay_factor := 0.94;
     confidence_threshold := 0.75;
     regime_persistence := 5;
     transition_smoothing := true |}.

Definition priors (params : list (string * regime_entry)) : list Q :=
  map probability (dict_values params).

End advanced_regime_engine.

(** ** regime_detector.py *)
Module regime_detector.

(** This scheme names the volatility field [vol_threshold] and carries no
    [risk_scaling]. *)
Record regime_entry := {
  probability : Q;
  vol_threshold : Q;
  correlation_threshold : Q;
  description : string
}.

Definition REGIME_PARAMETERS : list (string * regime_entry) :=
  [ ("low_volatility",
     {| probability := 0.30;
        vol_threshold := 0.10;
        correlation_threshold := 0.3;
        description := "Stable Market Phase" |});
    ("trending",
     {| probability := 0.45;
        vol_threshold := 0.15;
        correlation_threshold := 0.5;
        description := "Directional Market Movement" |});
    ("high_volatility",
     {| probability := 0.20;
        vol_threshold := 0.25;
        correlation_threshold := 0.7;
        description := "Market Stress Period" |});
    ("regime_shift",
     {| probability := 0.05;
        vol_threshold := 0.35;
        correlation_threshold := 0.8;
        description := "Regime Transition Phase" |}) ].

(** No [minimum_history] and no [decay_factor] in this table. *)
Record detection_config := {
  lookback_windows : list Z;
  minimum_regime_duration : Z;
  confidence_threshold : Q;
  transition_smoothing : bool;
  vol_scaling : bool
}.

Definition DETECTION_CONFIG : detection_config :=
  {| lookback_windows := [21; 63; 252]%Z;
     minimum_regime_duration := 5;
     confidence_threshold := 0.75;
     transition_smoothing := true;
     vol_scaling := true |}.

Definition priors (params : list (string * regime_entry)) : list Q :=
  map probability (dict_values params).

End regime_detector.

(** ** advanced_risk_engine.py: the tables *)
Module risk_tables.

Record portfolio_limits := {
  max_drawdown : Q;
  var_limit : Q;
  expected_shortfall : Q;
  concentration_limit : Q
}.

Record volatility_limits := {
  target : Q;
  bands : Q * Q;
  scaling_limits : Q * Q;
  regime_adjustments : list (string * Q)
}.

Record position_limits := {
  max_single_name : Q;
  min_single_name : Q;
  max_sector : Q;
  liquidity_threshold : Q
}.

Record risk_limits := {
  portfolio : portfolio_limits;
  volatility : volatility_limits;
  position : position_limits
}.

Definition RISK_LIMITS : risk_limits :=
  {| portfolio :=
       {| max_drawdown := 0.15;
          var_limit := 0.12;
          expected_shortfall := 0.20;
          concentration_limit := 0.25 |};
     volatility :=
       {| target := 0.12;
          bands := (0.08, 0.15);
          scaling_limits := (0.5, 2.0);
          regime_adjustments :=
            [ ("low_vol", 1.2); ("high_vol", 0.8); ("crisis", 0.5) ] |};
     position :=
       {| max_single_name := 0.05;
          min_single_name := 0.01;
          max_sector := 0.25;
          liquidity_threshold := 0.15 |} |}.

Record momentum := {
  short_window : Z;
  long_window : Z;
  signal_threshold : Q
}.

Record regime_parameters := {
  lookback_window : Z;
  vol_threshold : list (string * Q);
  correlation_threshold : list (string * Q);
  momentum_signals : momentum
}.

Definition REGIME_PARAMETERS : regime_parameters :=
  {| lookback_window := 63;
     vol_threshold := [ ("low", 0.10); ("high", 0.20) ];
     correlation_threshold := [ ("normal", 0.60); ("stress", 0.85) ];
     momentum_signals :=
       {| short_window := 21;
          long_window := 252;
          signal_threshold := 1.5 |} |}.

Definition MONITORING_CONFIG : list (string * list (string * Q)) :=
  [ ("intraday_alerts",
     [ ("drawdown", 0.02); ("volatility", 1.5); ("volume", 2.0) ]);
    ("position_alerts",
     [ ("concentration", 0.8); ("var_utilization", 0.9);
       ("correlation", 0.75) ]);
    ("market_condition_alerts",
     [ ("spread_widening", 2.0); ("liquidity_reduction", 0.5);
       ("momentum_reversal", 2.0) ]) ].

End risk_tables.

(** ** copula_garch.py: the tables *)
Module copula_tables.

(** An end point of a [parameter_range] tuple; [float('inf')] is [Inf]. *)
Inductive endpoint := Fin (q : Q) | Inf.

(** The entries of [COPULA_TYPES] do not all carry the same keys. *)
Record copula_entry := {
  description : string;
  tail_dependence : string;
  estimation : option string;
  degrees_freedom : option string;
  parameter_range : option (endpoint * endpoint)
}.

Definition COPULA_TYPES : list (string * copula_entry) :=
  [ ("gaussian",
     {| description := "Gaussian copula for normal market conditions";
        tail_dependence := "symmetric";
        estimation := Some "maximum likelihood";
        degrees_freedom := None;
        parameter_range := None |});
    ("student_t",
     {| description := "Student-t copula for fat-tailed distributions";
        tail_dependence := "symmetric";
        estimation := None;
        degrees_freedom := Some "estimated";
        parameter_range := None |});
    ("clayton",
     {| description := "Clayton copula for left-tail dependence";
        tail_dependence := "lower";
        estimation := None;
        degrees_freedom := None;
        parameter_range := Some (Fin 0, Inf) |});
    ("gumbel",
     {| description := "Gumbel copula for right-tail dependence";
        tail_dependence := "upper";
        estimation := None;
        degrees_freedom := None;
        parameter_range := Some (Fin 1, Inf) |}) ].

Record garch_entry := {
  vol_model : string;
  distribution : string;
  garch_estimation : string
}.

Definition GARCH_SPECIFICATIONS : list (string * garch_entry) :=
  [ ("normal",
     {| vol_model := "GARCH(1,1)";
        distribution := "gaussian";
        garch_estimation := "maximum likelihood" |});
    ("student",
     {| vol_model := "GARCH(1,1)";
        distribution := "studentt";
        garch_estimation := "maximum likelihood" |});
    ("skewed",
     {| vol_model := "GARCH(1,1)";
        distribution := "skewt";
        garch_estimation := "maximum likelihood" |}) ].

End copula_tables.

(** ** Exceptions and results *)

(** Modelled from the spec: the error taxonomy of its section 7; the source
    tree defines no exception class.  [TypeError] is the interpreter's own,
    raised when a call does not fit the parameter list. *)
Inductive error :=
| ConfigurationError
| InsufficientHistoryError
| InsufficientDataError
| NonConvergenceError
| CopulaFitError
| TypeError.

Inductive result (A : Type) :=
| Ok (a : A)
| Raise (e : error).
Arguments Ok {A} a.
Arguments Raise {A} e.

Definition bind {A B : Type} (r : result A) (k : A -> result B) : result B :=
  match r with
  | Ok a => k a
  | Raise e => Raise e
  end.

Notation "x <- r ;; k" := (bind r (fun x => k))
  (at level 61, r at next level, right associativity).
Notation "r ;;; k" := (bind r (fun _ => k))
  (at level 61, right associativity).

Definition raises {A : Type} (r : result A) (e : error) : Prop := r = Raise e.

Definition returns_value {A : Type} (r : result A) : Prop := exists a, r = Ok a.

(** ** Calling a method

    The declared parameter lists are part of the source; a call binds
    positional arguments from the left, then keyword arguments by name, then
    the defaults.  [self] is bound by the method call and is left out. *)
Module call.

Inductive pyval :=
| PyNone
| PyInt (z : Z)
| PyFloat (q : Q)
| PyStr (s : string)
| PyArray (a : list (list Q)).

Record param := { pname : string; pdefault : option pyval }.

Definition signature := list param.

Definition env := list (string * pyval).

(** Positional arguments; more of them than parameters is a [TypeError]. *)
Fixpoint bind_positional (ps : signature) (args : list pyval) : result env :=
  match args, ps with
  | [], _ => Ok []
  | _ :: _, [] => Raise TypeError
  | a :: args', p :: ps' =>
      e <- bind_positional ps' args' ;; Ok ((pname p, a) :: e)
  end.

(** Keyword arguments; a name that is not a parameter, or that is bound
    already, is a [TypeError]. *)
Fixpoint bind_keywords (ps : signature) (e : env)
         (kwargs : list (string * pyval)) : result env :=
  match kwargs with
  | [] => Ok e
  | (k, v) :: kwargs' =>
      if negb (mem_string k (map pname ps)) then Raise TypeError
      else if mem_string k (dict_keys e) then Raise TypeError
      else bind_keywords ps (e ++ [(k, v)])%list kwargs'
  end.

(** Defaults; a parameter left without a value is a [TypeError]. *)
Fixpoint fill_defaults (ps : signature) (e : env) : result env :=
  match ps with
  | [] => Ok []
  | p :: ps' =>
      v <- match dict_get (pname p) e, pdefault p with
           | Some v, _ => Ok v
           | None, Some d => Ok d
           | None, None => Raise TypeError
           end ;;
      rest <- fill_defaults ps' e ;;
      Ok ((pname p, v) :: rest)
  end.

Definition bind_call (ps : signature) (args : list pyval)
           (kwargs : list (string * pyval)) : result env :=
  e <- bind_positional ps args ;;
  e' <- bind_keywords ps e kwargs ;;
  fill_defaults ps e'.

(** A parameter is required when a call that leaves it out is rejected. *)
Definition accepts (ps : signature) (args : list pyval)
           (kwargs : list (string * pyval)) : bool :=
  match bind_call ps args kwargs with Ok _ => true | Raise _ => false end.

(** The parameter lists as declared. *)
Definition detect_regime : signature :=
  [ {| pname := "returns"; pdefault := None |};
    {| pname := "volumes"; pdefault := Some PyNone |};
    {| pname := "market_data"; pdefault := Some PyNone |} ].

Definition detect_current_regime : signature :=
  [ {| pname := "returns"; pdefault := None |};
    {| pname := "volumes"; pdefault := Some PyNone |} ].

Definition fit_marginals : signature :=
  [ {| pname := "returns"; pdefault := None |};
    {| pname := "garch_type"; pdefault := Some (PyStr "skewed") |} ].

Definition estimate_copula : signature :=
  [ {| pname := "residuals"; pdefault := None |};
    {| pname := "copula_type"; pdefault := Some (PyStr "student_t") |} ].

Definition simulate_scenarios : signature :=
  [ {| pname := "n_scenarios"; pdefault := Some (PyInt 10000) |};
    {| pname := "horizon"; pdefault := Some (PyInt 10) |} ].

Definition calculate_position_adjustments : signature := [].

Definition get_risk_report : signature := [].

End call.

(** ** Small numeric helpers *)

Definition Qltb (x y : Q) : bool := negb (Qle_bool y x).

Definition Qclamp (bounds : Q * Q) (x : Q) : Q :=
  let (lo, hi) := bounds in
  if Qltb x lo then lo else if Qltb hi x then hi else x.

(** Strictly increasing along the list. *)
Fixpoint increasing (xs : list Q) : bool :=
  match xs with
  | [] => true
  | x :: rest =>
      match rest with
      | [] => true
      | y :: _ => Qltb x y && increasing rest
      end
  end.

(** [a[-w:]]: the last [w] rows, or all of them when there are fewer. *)
Definition last_rows {A : Type} (w : Z) (a : list A) : list A :=
  skipn (List.length a - Z.to_nat w) a.

(** ** What the specification leaves to the implementer

    The specification fixes contracts and decision policies and "does not
    prescribe a specific GARCH optimizer or copula-likelihood solver"; it
    also names an override margin and a scoring function without giving
    them.  These parts are the fields of [Backend]; every statement about a
    modelled operation holds for every back end. *)

(** Modelled from the spec: the records [MarginalModel], [CopulaModel] and
    [ScenarioSet] of its data model (section 3); the source tree has no
    class for them. *)
Record MarginalModel := {
  omega : Q;
  alpha : Q;
  beta : Q;
  innovation : string;
  standardized_residuals : list Q;
  forecast_variance : Q
}.

Record CopulaModel := {
  family : string;
  parameter : option Q;
  correlation : list (list Q);
  log_likelihood : Q;
  degenerate_correlation_warning : bool
}.

Record ScenarioSet := {
  horizon : Z;
  n_scenarios : Z;
  paths : list (list (list Q))
}.

Definition scenario_set (h n : Z) (ps : list (list (list Q))) : ScenarioSet :=
  {| horizon := h; n_scenarios := n; paths := ps |}.

Class Backend := {
  (** step 1 of detection: decay-weighted realized volatility and
      correlation of one window *)
  realized : Q -> list (list Q) -> Q * Q;
  (** step 2 of detection: fit of the observations to one regime's
      thresholds (volatility threshold, correlation threshold) *)
  score : list (Q * Q) -> Q * Q -> Q;
  (** the "wide margin" of the persistence override *)
  override_margin : Q;
  (** maximum-likelihood GARCH(1,1) fit; [None] when the optimizer does not
      meet its tolerance within its iteration bound *)
  garch_mle : string -> list Q -> option MarginalModel;
  (** correlation estimate of the elliptical copulas, with its degrees of
      freedom and log-likelihood *)
  correlation_mle : string -> list (list Q) -> list (list Q) * option Q * Q;
  is_psd : list (list Q) -> bool;
  nearest_correlation : list (list Q) -> list (list Q);
  (** maximizer of the Archimedean copula log-likelihood with its value;
      [None] when the likelihood has no interior maximum *)
  copula_mle : string -> list (list Q) -> option (Q * Q);
  (** the random generator *)
  rng : Type;
  seed_rng : Z -> rng;
  draw_uniforms : CopulaModel -> nat -> rng -> list Q * rng;
  (** inverse-transform sampling: marginal model, conditional variance and
      uniform variate to simulated return *)
  marginal_quantile : MarginalModel -> Q -> Q -> Q;
  (** Value-at-Risk and Expected Shortfall of a weighted scenario set *)
  var_es : ScenarioSet -> list Q -> Q * Q
}.

(** ** AdvancedRegimeEngine (advanced_regime_engine.py): operations *)
Module regime_engine.
Import advanced_regime_engine.

(** The two class-level tables are the engine's configuration. *)
Record configuration := {
  regime_parameters : list (string * regime_entry);
  detection : detection_config
}.

Definition shipped : configuration :=
  {| regime_parameters := REGIME_PARAMETERS;
     detection := DETECTION_CONFIG |}.

(** Modelled from the spec: [RegimeState] of its data model (section 3),
    without the transition matrix, for which no update rule is given. *)
Record RegimeState := {
  regime : string;
  confidence : Q;
  posterior : list (string * Q);
  periods_in_regime : Z
}.

(** The engine retains the state of the previous detection run. *)
Record engine := {
  config : configuration;
  previous_state : option RegimeState
}.

(** Modelled from the spec: the priors check of the absent
    [_validate_parameters]: "priors across regimes for a given scheme must
    sum to 1.0", within 1e-9, summed as the interpreter sums them. *)
Definition priors_sum_to_one (cfg : configuration) : bool :=
  Float64.within 1e-9 1
    (Float64.sum (map Float64.of_literal (priors (regime_parameters cfg)))).

(** Modelled from the spec: the threshold-ordering check of the absent
    [_validate_parameters].  The regimes are listed from the calmest to the
    most severe: both thresholds grow along the table. *)
Definition thresholds_ordered (cfg : configuration) : bool :=
  increasing (map volatility_threshold (dict_values (regime_parameters cfg)))
  && increasing
       (map correlation_threshold (dict_values (regime_parameters cfg))).

Definition valid (cfg : configuration) : bool :=
  priors_sum_to_one cfg && thresholds_ordered cfg.

(** Modelled from the spec: [_validate_parameters], which [__post_init__]
    calls and the source tree does not contain.  "Invalid configuration
    (priors not summing to 1, threshold ordering violated, ...) fails fast
    with a configuration error before any data is processed." *)
Definition _validate_parameters (cfg : configuration) : result unit :=
  if negb (priors_sum_to_one cfg) then Raise ConfigurationError
  else if negb (thresholds_ordered cfg) then Raise ConfigurationError
  else Ok tt.

(** Modelled from the spec: [_initialize_detection_matrices], which
    [__post_init__] calls and the source tree does not contain.  A fresh
    engine holds no previous state. *)
Definition _initialize_detection_matrices (cfg : configuration)
  : result engine :=
  Ok {| config := cfg; previous_state := None |}.

(** [__post_init__]: validate, then initialize. *)
Definition __post_init__ (cfg : configuration) : result engine :=
  _validate_parameters cfg ;;; _initialize_detection_matrices cfg.

Section Detection.
Context {B : Backend}.

(** Modelled from the spec: step 1 of the absent body of [detect_regime],
    the statistics of every configured lookback window. *)
Definition observe (cfg : detection_config) (returns : list (list Q))
  : list (Q * Q) :=
  map (fun w => realized (decay_factor cfg) (last_rows w returns))
      (estimation_windows cfg).

(** Modelled from the spec: step 2 of the absent body of [detect_regime],
    the scores weighted by the priors and normalized. *)
Definition posteriors (params : list (string * regime_entry))
           (obs : list (Q * Q)) : list (string * Q) :=
  let raw :=
    map (fun e =>
           (fst e,
            probability (snd e)
            * score obs (volatility_threshold (snd e),
                         correlation_threshold (snd e)))%Q)
        params in
  let total := Qsum (map snd raw) in
  map (fun e => (fst e, snd e / total)%Q) raw.

(** Modelled from the spec: step 3 of the absent body of [detect_regime],
    the arg-max regime, the first one among equals. *)
Fixpoint arg_max_from (best : string * Q) (d : list (string * Q))
  : string * Q :=
  match d with
  | [] => best
  | e :: d' =>
      arg_max_from (if Qltb (snd best) (snd e) then e else best) d'
  end.

Definition arg_max (d : list (string * Q)) : string * Q :=
  match d with
  | [] => ("", 0%Q)
  | e :: d' => arg_max_from e d'
  end.


(** Modelled from the spec: step 4 of the absent body of [detect_regime],
    persistence: (a) the previous regime was held long enough, or (b) the
    candidate's confidence clears the threshold by the margin. *)
Definition held_long_enough (cfg : detection_config) (prev : RegimeState)
  : bool :=
  (regime_persistence cfg <=? periods_in_regime prev)%Z.

Definition overrides (cfg : detection_config) (conf : Q) : bool :=
  Qltb (confidence_threshold cfg + override_margin) conf.

Definition apply_persistence (cfg : detection_config)
           (prev : option RegimeState) (cand : string) (conf : Q)
  : string * Z :=
  match prev with
  | None => (cand, 1%Z)
  | Some p =>
      if String.eqb cand (regime p)
      then (regime p, (periods_in_regime p + 1)%Z)
      else if held_long_enough cfg p || overrides cfg conf
           then (cand, 1%Z)
           else (regime p, (periods_in_regime p + 1)%Z)
  end.

(** Modelled from the spec: step 5 of the absent body of [detect_regime],
    blending with the previous posteriors by the decay factor. *)
Definition blend (lambda : Q) (old new : list (string * Q))
  : list (string * Q) :=
  map (fun e =>
         (fst e,
          match dict_get (fst e) old with
          | Some p => (lambda * p + (1 - lambda) * snd e)%Q
          | None => snd e
          end))
      new.

Definition smooth (cfg : detection_config) (prev : option RegimeState)
           (new : list (string * Q)) : list (string * Q) :=
  match prev with
  | Some p =>
      if transition_smoothing cfg
      then blend (decay_factor cfg) (posterior p) new
      else new
  | None => new
  end.

(** Modelled from the spec: the body of [detect_regime], which the source
    tree declares without its implementation (the section "4.2
    RegimeDetector" of the specification, steps 1 to 5).  The result
    comes with the engine as the call leaves it. *)
Definition detect_regime (self : engine) (returns : list (list Q))
           (volumes : option (list (list Q))) (market_data : option unit)
  : result RegimeState * engine :=
  let cfg := detection (config self) in
  if (Z.of_nat (List.length returns) <? minimum_history cfg)%Z
  then (Raise InsufficientHistoryError, self)
  else
    let post :=
      posteriors (regime_parameters (config self)) (observe cfg returns) in
    let (cand, conf) := arg_max post in
    let (label, held) :=
      apply_persistence cfg (previous_state self) cand conf in
    let post' := smooth cfg (previous_state self) post in
    let st :=
      {| regime := label;
         confidence :=
           match dict_get label post' with Some p => p | None => 0%Q end;
         posterior := post';
         periods_in_regime := held |} in
    (Ok st, {| config := config self; previous_state := Some st |}).

End Detection.

End regime_engine.

(** ** CopulaGARCHEngine (copula_garch.py): operations *)
Module copula_garch.
Import copula_tables.

Record configuration := {
  copula_types : list (string * copula_entry);
  garch_specifications : list (string * garch_entry)
}.

Definition shipped : configuration :=
  {| copula_types := COPULA_TYPES;
     garch_specifications := GARCH_SPECIFICATIONS |}.




Record engine := { config : configuration }.


(** The engine once [fit_marginals] and [estimate_copula] have run. *)
Record fitted_engine := {
  base : engine;
  marginal_models : list MarginalModel;
  copula_model : CopulaModel
}.

(** Modelled from the spec: the minimum series length of the absent body of
    [fit_marginals], "model order + burn-in, e.g. >= 30". *)
Definition minimum_observations : Z := 30.

(** Modelled from the spec: the stationarity condition of the absent body
    of [fit_marginals], "sum of ARCH+GARCH coefficients < 1". *)
Definition stationary (m : MarginalModel) : bool :=
  Qltb (alpha m + beta m) 1.

(** Modelled from the spec: the domain check of the absent body of
    [estimate_copula], "Clayton parameter > 0, Gumbel parameter >= 1": the
    lower end of the table's [parameter_range] is excluded for clayton and
    included otherwise. *)
Definition in_domain (fam : string) (range : endpoint * endpoint)
           (theta : Q) : bool :=
  match fst range with
  | Fin lo =>
      if String.eqb fam "clayton" then Qltb lo theta else Qle_bool lo theta
  | Inf => false
  end
  && match snd range with
     | Fin hi => Qle_bool theta hi
     | Inf => true
     end.

Section Estimation.
Context {B : Backend}.

Definition fit_one (dist : string) (series : list Q)
  : result MarginalModel :=
  if (Z.of_nat (List.length series) <? minimum_observations)%Z
  then Raise InsufficientDataError
  else match garch_mle dist series with
       | None => Raise NonConvergenceError
       | Some m => if stationary m then Ok m else Raise NonConvergenceError
       end.

(** Modelled from the spec: the body of [fit_marginals], which the source
    tree declares without its implementation (section "4.1
    MarginalVolatilityModel"; the propagation policy of section 7 keeps
    each asset's outcome apart).  The family name is an argument of the
    call, so an unknown one is met here, before any column is read. *)
Definition fit_marginals (self : engine)
           (returns : list (string * list Q)) (garch_type : string)
  : result (list (string * result MarginalModel)) :=
  match dict_get garch_type (garch_specifications (config self)) with
  | None => Raise ConfigurationError
  | Some spec =>
      Ok (map (fun col => (fst col, fit_one (distribution spec) (snd col)))
              returns)
  end.

(** Modelled from the spec: the body of [estimate_copula], which the
    source tree declares without its implementation (section "4.3
    CopulaEstimator").  Families with a [parameter_range] have one
    tail-dependence parameter; the others a correlation matrix. *)
Definition estimate_copula (self : engine) (residuals : list (list Q))
           (copula_type : string) : result CopulaModel :=
  match dict_get copula_type (copula_types (config self)) with
  | None => Raise ConfigurationError
  | Some entry =>
      match parameter_range entry with
      | Some range =>
          match copula_mle copula_type residuals with
          | None => Raise CopulaFitError
          | Some (theta, ll) =>
              if in_domain copula_type range theta
              then Ok {| family := copula_type;
                         parameter := Some theta;
                         correlation := [];
                         log_likelihood := ll;
                         degenerate_correlation_warning := false |}
              else Raise CopulaFitError
          end
      | None =>
          let '(m, df, ll) := correlation_mle copula_type residuals in
          Ok {| family := copula_type;
                parameter := df;
                correlation :=
                  if is_psd m then m else nearest_correlation m;
                log_likelihood := ll;
                degenerate_correlation_warning := negb (is_psd m) |}
      end
  end.

(** Modelled from the spec: the GARCH(1,1) recursion of the absent body of
    [simulate_scenarios]. *)
Definition next_variance (m : MarginalModel) (variance r : Q) : Q :=
  (omega m + alpha m * (r * r) + beta m * variance)%Q.

(** Modelled from the spec: one forward period of the absent body of
    [simulate_scenarios]: draw dependent uniforms, invert each marginal,
    update each conditional variance with the simulated return. *)
Definition simulate_period (c : CopulaModel) (ms : list MarginalModel)
           (variances : list Q) (g : rng) : list Q * list Q * rng :=
  let (us, g') := draw_uniforms c (List.length ms) g in
  let rs :=
    map (fun x => marginal_quantile (fst (fst x)) (snd (fst x)) (snd x))
        (combine (combine ms variances) us) in
  let vs :=
    map (fun x => next_variance (fst (fst x)) (snd (fst x)) (snd x))
        (combine (combine ms variances) rs) in
  (rs, vs, g').

Fixpoint simulate_path (c : CopulaModel) (ms : list MarginalModel)
         (periods : nat) (variances : list Q) (g : rng)
  : list (list Q) * rng :=
  match periods with
  | O => ([], g)
  | S periods' =>
      let '(rs, vs, g') := simulate_period c ms variances g in
      let (rest, g'') := simulate_path c ms periods' vs g' in
      (rs :: rest, g'')
  end.

Fixpoint simulate_paths (c : CopulaModel) (ms : list MarginalModel)
         (n periods : nat) (g : rng) : list (list (list Q)) * rng :=
  match n with
  | O => ([], g)
  | S n' =>
      let (p, g') :=
        simulate_path c ms periods (map forecast_variance ms) g in
      let (rest, g'') := simulate_paths c ms n' periods g' in
      (p :: rest, g'')
  end.

(** Modelled from the spec: the body of [simulate_scenarios], which the
    source tree declares without its implementation (section "4.4
    ScenarioSimulator").  The declared parameters are [n_scenarios] and
    [horizon]; the generator the draws come from is state the call
    reads and advances. *)
Definition simulate_scenarios (self : fitted_engine)
           (n_scenarios horizon : Z) (g : rng) : ScenarioSet * rng :=
  let (ps, g') :=
    simulate_paths (copula_model self) (marginal_models self)
                   (Z.to_nat n_scenarios) (Z.to_nat horizon) g in
  (scenario_set horizon n_scenarios ps, g').



End Estimation.

End copula_garch.

(** ** AdvancedRiskEngine (advanced_risk_engine.py): operations *)
Module risk_engine.
Import risk_tables.

Record configuration := {
  limits : risk_limits;
  regime_parameters : regime_parameters;
  monitoring : list (string * list (string * Q))
}.

Definition shipped : configuration :=
  {| limits := RISK_LIMITS;
     regime_parameters := REGIME_PARAMETERS;
     monitoring := MONITORING_CONFIG |}.

(** Modelled from the spec: [Position] of its data model (section 3). *)
Record Position := {
  asset : string;
  weight : Q;
  sector : string;
  adv_fraction : Q
}.

(** The methods take no argument besides [self]: positions, scenario set,
    regime state and running drawdown are attributes of the engine. *)
Record engine := {
  config : configuration;
  regimes : list (string * advanced_regime_engine.regime_entry);
  positions : list Position;
  scenarios : ScenarioSet;
  regime_state : regime_engine.RegimeState;
  drawdown : Q
}.

Definition pair_ordered (lo hi : string) (d : list (string * Q)) : bool :=
  match dict_get lo d, dict_get hi d with
  | Some a, Some b => Qltb a b
  | _, _ => false
  end.

(** Modelled from the spec: the threshold-ordering check of the absent body
    of [_validate_configuration]: low below high volatility, normal below
    stress correlation. *)
Definition thresholds_ordered (cfg : configuration) : bool :=
  pair_ordered "low" "high" (vol_threshold (regime_parameters cfg))
  && pair_ordered "normal" "stress"
       (correlation_threshold (regime_parameters cfg)).

(** Modelled from the spec: the body of [_validate_configuration], which
    the source tree declares without its implementation.  Of the invalid
    configurations the specification lists (priors, threshold ordering,
    family names) this engine's tables can only break the threshold
    ordering. *)
Definition _validate_configuration (self : engine) : result unit :=
  if thresholds_ordered (config self) then Ok tt
  else Raise ConfigurationError.

(** Modelled from the spec: the bodies of [_initialize_risk_matrices] and
    [_setup_monitoring_system], which the source tree declares without
    their implementation; the specification gives them no way to fail. *)
Definition _initialize_risk_matrices (self : engine) : result unit := Ok tt.

Definition _setup_monitoring_system (self : engine) : result unit := Ok tt.

(** [__post_init__]: the three calls in the order of the source. *)
Definition __post_init__ (self : engine) : result unit :=
  _validate_configuration self ;;;
  _initialize_risk_matrices self ;;;
  _setup_monitoring_system self.

(** Modelled from the spec: regime-conditional volatility scaling: "target
    volatility is scaled by the current regime's risk_scaling factor
    before computing position size adjustments, and the scaled target is
    clamped to scaling_limits".  A regime without an entry scales by 1. *)
Definition regime_factor
           (table : list (string * advanced_regime_engine.regime_entry))
           (name : string) : Q :=
  match dict_get name table with
  | Some r => advanced_regime_engine.risk_scaling r
  | None => 1
  end.

Definition scaled_target (lim : risk_limits)
           (table : list (string * advanced_regime_engine.regime_entry))
           (name : string) : Q :=
  Qclamp (scaling_limits (volatility lim))
         (target (volatility lim) * regime_factor table name).

Definition exceeds (lim : risk_limits) (p : Position) : bool :=
  Qltb (max_single_name (position lim)) (weight p).

(** Modelled from the spec: the adjustment policy without portfolio-level
    breach: "shrink any position breaching a hard limit toward the limit
    boundary (not to zero) and re-normalize remaining weights
    proportionally so total exposure is preserved".  Only the single-name
    cap is shrunk here; the specification gives no shrinking rule for the
    lower bound, the sector limit or the liquidity limit.  When the
    remaining weights sum to zero there is nothing to scale and they are
    left as they are. *)
Definition cap_and_renormalize (lim : risk_limits) (ps : list Position)
  : list (string * Q) :=
  let cap := max_single_name (position lim) in
  let total := Qsum (map weight ps) in
  let capped := inject_Z (Z.of_nat (List.length (filter (exceeds lim) ps))) in
  let rest :=
    Qsum (map weight (filter (fun p => negb (exceeds lim p)) ps)) in
  let factor :=
    if Qeq_bool rest 0 then 1%Q else ((total - capped * cap) / rest)%Q in
  map (fun p =>
         (asset p, if exceeds lim p then cap else (weight p * factor)%Q))
      ps.

(** Modelled from the spec: the portfolio-level branch of the absent body of
    [calculate_position_adjustments]: "unless the portfolio-level
    drawdown/VaR breach requires net de-risking, in which case all weights
    are scaled down uniformly by the ratio of (limit / actual-metric)". *)
Definition de_risk_ratio (lim : risk_limits) (dd var : Q) : option Q :=
  if Qltb (max_drawdown (portfolio lim)) dd
  then Some (max_drawdown (portfolio lim) / dd)%Q
  else if Qltb (var_limit (portfolio lim)) var
       then Some (var_limit (portfolio lim) / var)%Q
       else None.

Record adjustments := {
  target_volatility : Q;
  adjusted : list (string * Q)
}.

Section Operations.
Context {B : Backend}.

Definition portfolio_breach (self : engine) : option Q :=
  de_risk_ratio (limits (config self)) (drawdown self)
                (fst (var_es (scenarios self) (map weight (positions self)))).

(** Modelled from the spec: the body of
    [calculate_position_adjustments], which the source tree declares
    without its implementation (section "4.5 RiskEngine"). *)
Definition calculate_position_adjustments (self : engine)
  : result adjustments :=
  let lim := limits (config self) in
  let tv :=
    scaled_target lim (regimes self)
                  (regime_engine.regime (regime_state self)) in
  Ok {| target_volatility := tv;
        adjusted :=
          match portfolio_breach self with
          | Some ratio =>
              map (fun p => (asset p, (weight p * ratio)%Q))
                  (positions self)
          | None => cap_and_renormalize lim (positions self)
          end |}.

(** Modelled from the spec: the body of [get_risk_report], which the
    source tree declares without its implementation: "mapping of named
    metrics to float values, including per-limit utilization ratios". *)
Definition get_risk_report (self : engine)
  : result (list (string * list (string * Q))) :=
  let lim := limits (config self) in
  let (var, es) := var_es (scenarios self) (map weight (positions self)) in
  Ok [ ("portfolio",
        [ ("var", var);
          ("expected_shortfall", es);
          ("var_utilization", (var / var_limit (portfolio lim))%Q);
          ("drawdown_utilization",
           (drawdown self / max_drawdown (portfolio lim))%Q) ]);
       ("volatility",
        [ ("target",
           scaled_target lim (regimes self)
                         (regime_engine.regime (regime_state self))) ]) ].

End Operations.

End risk_engine.

(** ** A small back end to run the operations on concrete inputs

    Volatility is read off the most recent return of the first asset, a
    regime fits the better the closer that reading is to its volatility
    threshold, the generator is a counter. *)
Module toy.







End toy.

(** ** Sample inputs *)



Definition position (name : string) (w : Q) : risk_engine.Position :=
  {| risk_engine.asset := name;
     risk_engine.weight := w;
     risk_engine.sector := "equity";
     risk_engine.adv_fraction := 0.01 |}.













(** ** The classes as they stand in the source tree

    Every class is a dataclass without annotated attributes, hence without
    fields: the generated [__init__] takes no argument and calls
    [__post_init__] when the class defines one.  A call [self.m()] looks
    [m] up among the attributes of the class.  Every method body other than
    [__post_init__] is [pass], which returns [None]. *)
Module as_written.

Inductive exception :=
| Binding (e : error)
| AttributeError (attribute : string).

Inductive outcome (A : Type) :=
| Done (a : A)
| Failed (x : exception).
Arguments Done {A} a.
Arguments Failed {A} x.

Record method := {
  parameters : call.signature;
  body : call.env -> call.pyval
}.

(** [pass] *)
Definition pass (e : call.env) : call.pyval := call.PyNone.

(** A method call on an instance of a class with the given methods. *)
Definition invoke (methods : list (string * method)) (name : string)
           (args : list call.pyval) (kwargs : list (string * call.pyval))
  : outcome call.pyval :=
  match dict_get name methods with
  | None => Failed (AttributeError name)
  | Some m =>
      match call.bind_call (parameters m) args kwargs with
      | Ok e => Done (body m e)
      | Raise err => Failed (Binding err)
      end
  end.

(** Two statements in a row. *)
Definition and_then {A B : Type} (first : outcome A) (second : outcome B)
  : outcome B :=
  match first with
  | Done _ => second
  | Failed x => Failed x
  end.

(** The generated [__init__] of a dataclass without fields. *)
Definition dataclass_init (post_init : option (outcome call.pyval))
           (args : list call.pyval) (kwargs : list (string * call.pyval))
  : outcome unit :=
  match call.bind_call [] args kwargs with
  | Raise err => Failed (Binding err)
  | Ok _ =>
      match post_init with
      | None => Done tt
      | Some run => and_then run (Done tt)
      end
  end.

(** advanced_regime_engine.py *)
Definition regime_engine_methods : list (string * method) :=
  [ ("detect_regime",
     {| parameters := call.detect_regime; body := pass |}) ].

Definition regime_engine_post_init : outcome call.pyval :=
  and_then (invoke regime_engine_methods "_validate_parameters" [] [])
           (invoke regime_engine_methods "_initialize_detection_matrices"
                   [] []).

Definition AdvancedRegimeEngine :=
  dataclass_init (Some regime_engine_post_init).

(** regime_detector.py *)
Definition regime_detector_methods : list (string * method) :=
  [ ("detect_current_regime",
     {| parameters := call.detect_current_regime; body := pass |}) ].

Definition regime_detector_post_init : outcome call.pyval :=
  and_then (invoke regime_detector_methods "_validate_parameters" [] [])
           (invoke regime_detector_methods "_initialize_detection_matrices"
                   [] []).

Definition RegimeDetector :=
  dataclass_init (Some regime_detector_post_init).

(** advanced_risk_engine.py *)
Definition risk_engine_methods : list (string * method) :=
  [ ("_validate_configuration", {| parameters := []; body := pass |});
    ("_initialize_risk_matrices", {| parameters := []; body := pass |});
    ("_setup_monitoring_system", {| parameters := []; body := pass |});
    ("calculate_position_adjustments",
     {| parameters := call.calculate_position_adjustments; body := pass |});
    ("get_risk_report",
     {| parameters := call.get_risk_report; body := pass |}) ].

Definition risk_engine_post_init : outcome call.pyval :=
  and_then (invoke risk_engine_methods "_validate_configuration" [] [])
    (and_then (invoke risk_engine_methods "_initialize_risk_matrices" [] [])
              (invoke risk_engine_methods "_setup_monitoring_system" [] [])).

Definition AdvancedRiskEngine :=
  dataclass_init (Some risk_engine_post_init).


Definition CopulaGARCHEngine := dataclass_init None.


End as_written.

(** ** Numbers the tables hold *)

Definition regime_literals : list Q :=
  (flat_map (fun e => [ advanced_regime_engine.probability e;
                        advanced_regime_engine.volatility_threshold e;
                        advanced_regime_engine.correlation_threshold e;
                        advanced_regime_engine.risk_scaling e ])
            (dict_values advanced_regime_engine.REGIME_PARAMETERS)
   ++ flat_map (fun e => [ regime_detector.probability e;
                           regime_detector.vol_threshold e;
                           regime_detector.correlation_threshold e ])
               (dict_values regime_detector.REGIME_PARAMETERS)
   ++ [ advanced_regime_engine.decay_factor
          advanced_regime_engine.DETECTION_CONFIG;
        advanced_regime_engine.confidence_threshold
          advanced_regime_engine.DETECTION_CONFIG;
        regime_detector.confidence_threshold
          regime_detector.DETECTION_CONFIG ])%list.

Definition risk_literals : list Q :=
  let lim := risk_tables.RISK_LIMITS in
  let pf := risk_tables.portfolio lim in
  let vol := risk_tables.volatility lim in
  let pos := risk_tables.position lim in
  let rp := risk_tables.REGIME_PARAMETERS in
  ([ risk_tables.max_drawdown pf; risk_tables.var_limit pf;
     risk_tables.expected_shortfall pf; risk_tables.concentration_limit pf;
     risk_tables.target vol;
     fst (risk_tables.bands vol); snd (risk_tables.bands vol);
     fst (risk_tables.scaling_limits vol);
     snd (risk_tables.scaling_limits vol) ]
   ++ dict_values (risk_tables.regime_adjustments vol)
   ++ [ risk_tables.max_single_name pos; risk_tables.min_single_name pos;
        risk_tables.max_sector pos; risk_tables.liquidity_threshold pos ]
   ++ dict_values (risk_tables.vol_threshold rp)
   ++ dict_values (risk_tables.correlation_threshold rp)
   ++ [ risk_tables.signal_threshold (risk_tables.momentum_signals rp) ]
   ++ flat_map (fun group => dict_values (snd group))
               risk_tables.MONITORING_CONFIG)%list.

Definition table_literals : list Q := (regime_literals ++ risk_literals)%list.

(** A monitoring threshold, by group and name. *)
Definition monitoring_threshold (group name : string) : option Q :=
  match dict_get group risk_tables.MONITORING_CONFIG with
  | Some g => dict_get name g
  | None => None
  end.

(** "Alert at 80% of limit", "Alert at 90% of VaR limit": the level at which
    a utilization alert fires is that share of the limit. *)
Definition alert_level (share limit : Q) : Q := (share * limit)%Q.

(** A dictionary literal whose keys are pairwise distinct keeps all of its
    entries, each retrievable by its key. *)
Definition well_keyed {A : Type} (d : list (string * A)) : Prop :=
  NoDup (dict_keys d)
  /\ forall k v, In (k, v) d -> dict_get k d = Some v.

Definition isSome {A : Type} (o : option A) : bool :=
  match o with
  | Some _ => true
  | None => false
  end.

(** * Properties *)

Local Open Scope Q_scope.

Lemma Qle_bool_true (x y : Q) : Qle_bool x y = true -> x <= y.
Proof. apply Qle_bool_iff. Qed.

Lemma Qltb_true (x y : Q) : Qltb x y = true -> x < y.
Proof.
  unfold Qltb. intros H. apply Qnot_le_lt. intros Hle.
  apply Qle_bool_iff in Hle. rewrite Hle in H. discriminate.
Qed.

Lemma Qltb_false (x y : Q) : Qltb x y = false -> y <= x.
Proof.
  unfold Qltb. intros H. apply Qle_bool_iff.
  destruct (Qle_bool y x); [reflexivity | discriminate].
Qed.

(** ** The tables *)

(** C1. The priors of the 3-state scheme and of the 4-state scheme sum to
    1.0 within 1e-9: exactly 1 as decimals, and exactly the double 1.0 when
    the doubles of the literals are added in table order. *)
Theorem regime_priors_sum_to_one :
  let p3 := advanced_regime_engine.priors
              advanced_regime_engine.REGIME_PARAMETERS in
  let p4 := regime_detector.priors regime_detector.REGIME_PARAMETERS in
  (Qabs (Qsum p3 - 1) <= 1e-9 /\ Qabs (Qsum p4 - 1) <= 1e-9)
  /\ (exists v3 v4,
        Float64.to_Q (Float64.sum (map Float64.of_literal p3)) = Some v3
        /\ Float64.to_Q (Float64.sum (map Float64.of_literal p4)) = Some v4
        /\ Qabs (v3 - 1) <= 1e-9 /\ Qabs (v4 - 1) <= 1e-9)
  /\ dict_keys advanced_regime_engine.REGIME_PARAMETERS
     = ["calm"; "stress"; "crisis"]%string
  /\ dict_keys regime_detector.REGIME_PARAMETERS
     = ["low_volatility"; "trending"; "high_volatility"; "regime_shift"]%string.
Proof.
  cbv zeta. split; [| split; [| split; reflexivity]].
  - split; apply Qle_bool_true; vm_compute; reflexivity.
  - eexists. eexists.
    split; [vm_compute; reflexivity |].
    split; [vm_compute; reflexivity |].
    split; apply Qle_bool_true; vm_compute; reflexivity.
Qed.

(** The order of summation does not matter for the tolerance: every one of
    the 6 resp. 24 orders of adding the doubles stays within 1e-9 of 1. *)
Lemma regime_priors_sum_in_any_order :
  List.length (orders (advanced_regime_engine.priors
                         advanced_regime_engine.REGIME_PARAMETERS)) = 6%nat
  /\ List.length (orders (regime_detector.priors
                            regime_detector.REGIME_PARAMETERS)) = 24%nat
  /\ forallb (fun l => Float64.within 1e-9 1
                         (Float64.sum (map Float64.of_literal l)))
             (orders (advanced_regime_engine.priors
                        advanced_regime_engine.REGIME_PARAMETERS)
              ++ orders (regime_detector.priors
                           regime_detector.REGIME_PARAMETERS))
     = true.
Proof. repeat split; vm_compute; reflexivity. Qed.

Lemma last_rows_length {A : Type} (w : Z) (a : list A) :
  (0 <= w <= Z.of_nat (List.length a))%Z ->
  List.length (last_rows w a) = Z.to_nat w.
Proof.
  intros H. unfold last_rows. rewrite length_skipn. lia.
Qed.

(** C9. Every lookback window of both shipped detection tables (21, 63,
    252) is at most [minimum_history] (252); hence, on any history that
    detection accepts, the slice of every configured window is full. *)
Theorem windows_within_minimum_history :
  let windows3 :=
    advanced_regime_engine.estimation_windows
      advanced_regime_engine.DETECTION_CONFIG in
  let windows4 :=
    regime_detector.lookback_windows regime_detector.DETECTION_CONFIG in
  let least :=
    advanced_regime_engine.minimum_history
      advanced_regime_engine.DETECTION_CONFIG in
  windows3 = [21; 63; 252]%Z /\ windows4 = [21; 63; 252]%Z /\ least = 252%Z
  /\ Forall (fun w => (0 < w <= least)%Z) windows3
  /\ Forall (fun w => (0 < w <= least)%Z) windows4
  /\ forall (returns : list (list Q)) (w : Z),
       In w windows3 \/ In w windows4 ->
       (least <= Z.of_nat (List.length returns))%Z ->
       List.length (last_rows w returns) = Z.to_nat w.
Proof.
  cbv zeta.
  assert (H3 : Forall (fun w => (0 < w <= 252)%Z) [21; 63; 252]%Z)
    by (repeat constructor; lia).
  repeat split; try reflexivity; try exact H3.
  intros returns w Hw Hlen. apply last_rows_length.
  assert (Hin : In w [21; 63; 252]%Z) by (destruct Hw; assumption).
  rewrite Forall_forall in H3. specialize (H3 w Hin).
  change (advanced_regime_engine.minimum_history
            advanced_regime_engine.DETECTION_CONFIG) with 252%Z in Hlen.
  lia.
Qed.

Lemma windows_within_minimum_history_witness :
  List.length (last_rows 63 (repeat [0.01] 300)) = 63%nat.
Proof.
  destruct windows_within_minimum_history as (_ & _ & _ & _ & _ & H).
  apply (H (repeat [0.01] 300) 63%Z).
  - left. simpl. tauto.
  - rewrite repeat_length. vm_compute. discriminate.
Defined.

(** C10. The shipped limits are consistent: min_single_name (0.01) is below
    max_single_name (0.05), which is below max_sector (0.25), which equals
    the portfolio concentration_limit (0.25), as decimals and as doubles; so
    a weight within the single-name bounds is within the sector and
    concentration limits. *)
Theorem position_limits_consistent :
  let pos := risk_tables.position risk_tables.RISK_LIMITS in
  let pf := risk_tables.portfolio risk_tables.RISK_LIMITS in
  let lo := risk_tables.min_single_name pos in
  let hi := risk_tables.max_single_name pos in
  let sec := risk_tables.max_sector pos in
  let conc := risk_tables.concentration_limit pf in
  (lo = 0.01 /\ hi = 0.05 /\ sec = 0.25 /\ conc = 0.25)
  /\ (lo < hi /\ hi < sec /\ sec == conc)
  /\ (Float64.ltb (Float64.of_literal lo) (Float64.of_literal hi) = true
      /\ Float64.ltb (Float64.of_literal hi) (Float64.of_literal sec) = true
      /\ Float64.eqb (Float64.of_literal sec) (Float64.of_literal conc) = true)
  /\ forall w : Q, lo <= w /\ w <= hi -> w <= sec /\ w <= conc.
Proof.
  cbv zeta. split; [repeat split | split; [| split]].
  - repeat split; try reflexivity.
  - repeat split; vm_compute; reflexivity.
  - intros w [_ Hw]. split.
    + apply Qle_trans with (1 := Hw). vm_compute. discriminate.
    + apply Qle_trans with (1 := Hw). vm_compute. discriminate.
Qed.

Lemma position_limits_consistent_witness :
  0.03 <= 0.25 /\ 0.03 <= 0.25.
Proof.
  destruct position_limits_consistent as (_ & _ & _ & H).
  apply (H 0.03). split; vm_compute; discriminate.
Defined.

(** ** Regime-conditional volatility target *)



(** The clamp hides the regime: with the shipped tables every regime of the
    3-state scheme ends at the lower scaling limit. *)
Lemma scaled_target_is_lower_limit_in_every_regime :
  forall name,
    In name (dict_keys advanced_regime_engine.REGIME_PARAMETERS) ->
    risk_engine.scaled_target risk_tables.RISK_LIMITS
                              advanced_regime_engine.REGIME_PARAMETERS name
    = 0.5.
Proof.
  intros name [H | [H | [H | []]]]; subst name; reflexivity.
Qed.

(** ** Regime detection *)






(** ** Copula estimation *)





(** ** Position adjustments *)

Section CapAndRenormalize.
Variable lim : risk_tables.risk_limits.

Let cap := risk_tables.max_single_name (risk_tables.position lim).




End CapAndRenormalize.




(** ** Configuration errors *)




(** ** Scenario simulation *)






(** The scenario set has one path per scenario and one row per period. *)
Lemma simulate_path_length (B : Backend) (c : CopulaModel)
      (ms : list MarginalModel) (periods : nat) :
  forall variances g,
    List.length (fst (copula_garch.simulate_path c ms periods variances g))
    = periods.
Proof.
  induction periods as [| periods IH]; intros variances g; cbn.
  - reflexivity.
  - destruct (copula_garch.simulate_period c ms variances g) as [[rs vs] g'].
    specialize (IH vs g').
    destruct (copula_garch.simulate_path c ms periods vs g') as [rest g''].
    cbn in *. rewrite IH. reflexivity.
Qed.

Lemma simulate_paths_shape (B : Backend) (c : CopulaModel)
      (ms : list MarginalModel) (periods n : nat) :
  forall g,
    List.length (fst (copula_garch.simulate_paths c ms n periods g)) = n
    /\ Forall (fun p => List.length p = periods)
              (fst (copula_garch.simulate_paths c ms n periods g)).
Proof.
  induction n as [| n IH]; intros g; cbn.
  - split; [reflexivity | constructor].
  - pose proof (simulate_path_length B c ms periods
                                     (map forecast_variance ms) g) as Hp.
    destruct (copula_garch.simulate_path c ms periods _ g) as [p g'].
    specialize (IH g').
    destruct (copula_garch.simulate_paths c ms n periods g') as [rest g''].
    cbn in *. destruct IH as [Hn Hall].
    split; [rewrite Hn; reflexivity | constructor; assumption].
Qed.

(** * Further properties of the source *)

(** ** Calling conventions *)

Lemma bind_keywords_error (ps : call.signature)
      (kwargs : list (string * call.pyval)) :
  forall e err, call.bind_keywords ps e kwargs = Raise err -> err = TypeError.
Proof.
  induction kwargs as [| [k v] kwargs IH]; intros e err H; cbn in H.
  - discriminate H.
  - destruct (negb _); [injection H as <-; reflexivity |].
    destruct (mem_string k _); [injection H as <-; reflexivity |].
    exact (IH _ _ H).
Qed.






Lemma dict_get_absent {A : Type} (k : string) (d : list (string * A)) :
  ~ In k (dict_keys d) -> dict_get k d = None.
Proof.
  induction d as [| [k' v] d IH]; cbn; intros H; [reflexivity |].
  destruct (String.eqb k k') eqn:E.
  - apply String.eqb_eq in E. subst k'. exfalso. apply H. left. reflexivity.
  - apply IH. intros Hin. apply H. right. exact Hin.
Qed.

Lemma bind_keywords_names (ps : call.signature)
      (kwargs : list (string * call.pyval)) :
  forall e e',
    call.bind_keywords ps e kwargs = Ok e' ->
    dict_keys e' = (dict_keys e ++ dict_keys kwargs)%list.
Proof.
  induction kwargs as [| [k v] kwargs IH]; intros e e' H; cbn in H.
  - injection H as <-. rewrite app_nil_r. reflexivity.
  - destruct (negb _); [discriminate H |].
    destruct (mem_string k _); [discriminate H |].
    rewrite (IH _ _ H). unfold dict_keys. rewrite map_app, <- app_assoc.
    reflexivity.
Qed.

(** Without its data argument a call is a [TypeError]. *)
Lemma missing_first_argument (first : string) (rest : call.signature)
      (kwargs : list (string * call.pyval)) :
  ~ In first (dict_keys kwargs) ->
  call.bind_call ({| call.pname := first; call.pdefault := None |} :: rest)
                 [] kwargs
  = Raise TypeError.
Proof.
  intros Hout. unfold call.bind_call.
  cbn [call.bind_positional bind].
  destruct (call.bind_keywords _ [] kwargs) as [e | err] eqn:Hkw.
  - cbn [bind call.fill_defaults call.pname call.pdefault].
    apply bind_keywords_names in Hkw. cbn in Hkw.
    rewrite dict_get_absent by (rewrite Hkw; exact Hout).
    reflexivity.
  - apply bind_keywords_error in Hkw. subst err. reflexivity.
Qed.

(** The four operations that read data ([detect_regime],
    [detect_current_regime], [fit_marginals], [estimate_copula]) reject
    every call that does not pass the data argument; they take it by
    position or by name with the same effect.  The other three operations
    can be called without arguments. *)
Theorem data_argument_is_required :
  (forall ps first,
      In (ps, first)
         [ (call.detect_regime, "returns"%string);
           (call.detect_current_regime, "returns"%string);
           (call.fit_marginals, "returns"%string);
           (call.estimate_copula, "residuals"%string) ] ->
      (forall kwargs,
          ~ In first (dict_keys kwargs) ->
          call.bind_call ps [] kwargs = Raise TypeError)
      /\ (forall x,
             exists e,
               call.bind_call ps [x] [] = Ok e
               /\ call.bind_call ps [] [(first, x)] = Ok e
               /\ dict_get first e = Some x))
  /\ (forall ps,
         In ps [ call.simulate_scenarios;
                 call.calculate_position_adjustments;
                 call.get_risk_report ] ->
         call.accepts ps [] [] = true).
Proof.
  split.
  - intros ps first Hin. cbn in Hin.
    destruct Hin as [H | [H | [H | [H | []]]]]; injection H as <- <-;
      (split;
       [ intros kwargs Hout; apply missing_first_argument; exact Hout
       | intros x; eexists; repeat split; reflexivity ]).
  - intros ps Hin. cbn in Hin.
    destruct Hin as [<- | [<- | [<- | []]]]; reflexivity.
Qed.

Lemma data_argument_is_required_witness :
  call.bind_call call.estimate_copula []
                 [("copula_type"%string, call.PyStr "clayton")]
  = Raise TypeError.
Proof.
  destruct data_argument_is_required as [Hdata _].
  destruct (Hdata call.estimate_copula "residuals"%string) as [Hmissing _].
  - simpl. tauto.
  - apply Hmissing. simpl. intros [H | []]. discriminate H.
Defined.

(** Called with the data alone, [fit_marginals] and [estimate_copula] fall
    back on family names that their tables know: "skewed", the skew-t
    GARCH(1,1), and "student_t", the copula with estimated degrees of
    freedom; [detect_regime] leaves volumes and market data at [None]. *)
Theorem default_arguments_are_table_keys (x : call.pyval) :
  (exists e name spec,
      call.bind_call call.fit_marginals [x] [] = Ok e
      /\ dict_get "garch_type" e = Some (call.PyStr name)
      /\ dict_get name copula_tables.GARCH_SPECIFICATIONS = Some spec
      /\ copula_tables.distribution spec = "skewt"%string)
  /\ (exists e name entry,
         call.bind_call call.estimate_copula [x] [] = Ok e
         /\ dict_get "copula_type" e = Some (call.PyStr name)
         /\ dict_get name copula_tables.COPULA_TYPES = Some entry
         /\ copula_tables.degrees_freedom entry = Some "estimated"%string)
  /\ call.bind_call call.detect_regime [x] []
     = Ok [ ("returns"%string, x); ("volumes"%string, call.PyNone);
            ("market_data"%string, call.PyNone) ]
  /\ call.bind_call call.detect_current_regime [x] []
     = Ok [ ("returns"%string, x); ("volumes"%string, call.PyNone) ].
Proof.
  split; [| split; [| split; reflexivity]].
  - eexists. eexists. eexists. repeat split; reflexivity.
  - eexists. eexists. eexists. repeat split; reflexivity.
Qed.

(** ** The classes as they stand *)

Lemma bind_call_without_parameters (args : list call.pyval)
      (kwargs : list (string * call.pyval)) :
  call.bind_call [] args kwargs
  = match args, kwargs with
    | [], [] => Ok []
    | _, _ => Raise TypeError
    end.
Proof.
  destruct args as [| a args]; [| reflexivity].
  destruct kwargs as [| [k v] kwargs]; reflexivity.
Qed.

(** As the source stands, neither regime engine can be constructed:
    [__post_init__] calls [_validate_parameters], which the class does not
    define, so a construction without arguments ends in an AttributeError
    for that name, and one with arguments in a TypeError. *)
Theorem regime_engines_cannot_be_constructed
        (args : list call.pyval) (kwargs : list (string * call.pyval)) :
  let expected :=
    match args, kwargs with
    | [], [] =>
        as_written.Failed
          (as_written.AttributeError "_validate_parameters")
    | _, _ => as_written.Failed (as_written.Binding TypeError)
    end in
  as_written.AdvancedRegimeEngine args kwargs = expected
  /\ as_written.RegimeDetector args kwargs = expected
  /\ (forall instance,
         as_written.AdvancedRegimeEngine args kwargs
         <> as_written.Done instance
         /\ as_written.RegimeDetector args kwargs
            <> as_written.Done instance).
Proof.
  cbv zeta.
  unfold as_written.AdvancedRegimeEngine, as_written.RegimeDetector,
    as_written.dataclass_init.
  rewrite bind_call_without_parameters.
  destruct args as [| a args]; [destruct kwargs as [| [k v] kwargs] |];
    repeat split; try reflexivity; discriminate.
Qed.

(** The risk engine and the copula engine are constructed by a call
    without arguments and by no other call: the risk engine's three
    initialization methods are defined and return, the copula engine runs
    no initialization at all. *)
Theorem risk_and_copula_engines_construct_bare
        (args : list call.pyval) (kwargs : list (string * call.pyval)) :
  (as_written.AdvancedRiskEngine args kwargs = as_written.Done tt
   <-> args = [] /\ kwargs = [])
  /\ (as_written.CopulaGARCHEngine args kwargs = as_written.Done tt
      <-> args = [] /\ kwargs = [])
  /\ (args <> [] \/ kwargs <> [] ->
      as_written.AdvancedRiskEngine args kwargs
      = as_written.Failed (as_written.Binding TypeError)
      /\ as_written.CopulaGARCHEngine args kwargs
         = as_written.Failed (as_written.Binding TypeError)).
Proof.
  unfold as_written.AdvancedRiskEngine, as_written.CopulaGARCHEngine,
    as_written.dataclass_init.
  rewrite bind_call_without_parameters.
  destruct args as [| a args]; [destruct kwargs as [| [k v] kwargs] |];
    cbn.
  - split; [tauto |]. split; [tauto |].
    intros [Hne | Hne]; contradiction.
  - split; [| split].
    + split; [discriminate | intros [_ Hk]; discriminate Hk].
    + split; [discriminate | intros [_ Hk]; discriminate Hk].
    + intros _. split; reflexivity.
  - split; [| split].
    + split; [discriminate | intros [Ha _]; discriminate Ha].
    + split; [discriminate | intros [Ha _]; discriminate Ha].
    + intros _. split; reflexivity.
Qed.

Lemma risk_and_copula_engines_construct_bare_witness :
  as_written.AdvancedRiskEngine [call.PyInt 1] []
  = as_written.Failed (as_written.Binding TypeError).
Proof.
  destruct (risk_and_copula_engines_construct_bare [call.PyInt 1] [])
    as (_ & _ & H).
  apply H. left. discriminate.
Defined.



(** ** More on the tables *)

Lemma dict_get_of_entry {A : Type} (d : list (string * A)) :
  NoDup (dict_keys d) ->
  forall k v, In (k, v) d -> dict_get k d = Some v.
Proof.
  induction d as [| [k' v'] d IH]; cbn; intros Hnd k v Hin; [contradiction |].
  inversion Hnd as [| ? ? Hout Hnd']; subst.
  destruct Hin as [Heq | Hin].
  - injection Heq as -> ->. rewrite String.eqb_refl. reflexivity.
  - destruct (String.eqb k k') eqn:E.
    + apply String.eqb_eq in E. subst k'. exfalso. apply Hout.
      change k with (fst (k, v)). apply in_map. exact Hin.
    + apply IH; assumption.
Qed.

Ltac distinct_keys :=
  cbn; repeat (constructor; [cbn; intuition discriminate |]); constructor.

Ltac keyed := split; [distinct_keys | apply dict_get_of_entry; distinct_keys].

(** No dictionary literal of the source repeats a key, so no entry is
    overwritten by a later one and every entry is found under its key. *)
Theorem tables_keep_every_entry :
  well_keyed advanced_regime_engine.REGIME_PARAMETERS
  /\ well_keyed regime_detector.REGIME_PARAMETERS
  /\ well_keyed copula_tables.COPULA_TYPES
  /\ well_keyed copula_tables.GARCH_SPECIFICATIONS
  /\ well_keyed (risk_tables.regime_adjustments
                   (risk_tables.volatility risk_tables.RISK_LIMITS))
  /\ well_keyed (risk_tables.vol_threshold risk_tables.REGIME_PARAMETERS)
  /\ well_keyed (risk_tables.correlation_threshold
                   risk_tables.REGIME_PARAMETERS)
  /\ well_keyed risk_tables.MONITORING_CONFIG
  /\ Forall (fun group => well_keyed (snd group))
            risk_tables.MONITORING_CONFIG.
Proof.
  repeat (split; [keyed |]).
  repeat (apply Forall_cons; [cbn [snd]; keyed |]). apply Forall_nil.
Qed.

(** Both regime tables list their regimes by rising severity: along each
    table the volatility threshold and the correlation threshold rise
    strictly, and in the 3-state scheme the risk scaling falls strictly.
    The two schemes start and end at the same thresholds. *)
Theorem regimes_ordered_by_severity :
  ForallOrdPairs
    (fun a b =>
       advanced_regime_engine.volatility_threshold a
       < advanced_regime_engine.volatility_threshold b
       /\ advanced_regime_engine.correlation_threshold a
          < advanced_regime_engine.correlation_threshold b
       /\ advanced_regime_engine.risk_scaling b
          < advanced_regime_engine.risk_scaling a)
    (dict_values advanced_regime_engine.REGIME_PARAMETERS)
  /\ ForallOrdPairs
       (fun a b =>
          regime_detector.vol_threshold a < regime_detector.vol_threshold b
          /\ regime_detector.correlation_threshold a
             < regime_detector.correlation_threshold b)
       (dict_values regime_detector.REGIME_PARAMETERS)
  /\ (let vol3 := map advanced_regime_engine.volatility_threshold
                      (dict_values advanced_regime_engine.REGIME_PARAMETERS) in
      let vol4 := map regime_detector.vol_threshold
                      (dict_values regime_detector.REGIME_PARAMETERS) in
      let cor3 := map advanced_regime_engine.correlation_threshold
                      (dict_values advanced_regime_engine.REGIME_PARAMETERS) in
      let cor4 := map regime_detector.correlation_threshold
                      (dict_values regime_detector.REGIME_PARAMETERS) in
      hd_error vol3 = hd_error vol4
      /\ hd_error (rev vol3) = hd_error (rev vol4)
      /\ hd_error cor3 = hd_error cor4
      /\ hd_error (rev cor3) = hd_error (rev cor4)).
Proof.
  split; [| split].
  - repeat constructor; vm_compute; reflexivity.
  - repeat constructor; vm_compute; reflexivity.
  - cbv zeta. repeat split; reflexivity.
Qed.

(** Every prior, volatility threshold and correlation threshold of both
    schemes lies strictly between 0 and 1, and every risk scaling factor
    above 0 and at most 1: no regime is impossible or certain, and no regime
    scales exposure up. *)
Theorem regime_entries_in_range :
  Forall (fun e =>
            (0 < advanced_regime_engine.probability e
             /\ advanced_regime_engine.probability e < 1)
            /\ (0 < advanced_regime_engine.volatility_threshold e
                /\ advanced_regime_engine.volatility_threshold e < 1)
            /\ (0 < advanced_regime_engine.correlation_threshold e
                /\ advanced_regime_engine.correlation_threshold e < 1)
            /\ (0 < advanced_regime_engine.risk_scaling e
                /\ advanced_regime_engine.risk_scaling e <= 1))
         (dict_values advanced_regime_engine.REGIME_PARAMETERS)
  /\ Forall (fun e =>
               (0 < regime_detector.probability e
                /\ regime_detector.probability e < 1)
               /\ (0 < regime_detector.vol_threshold e
                   /\ regime_detector.vol_threshold e < 1)
               /\ (0 < regime_detector.correlation_threshold e
                   /\ regime_detector.correlation_threshold e < 1))
            (dict_values regime_detector.REGIME_PARAMETERS).
Proof.
  split; repeat constructor; vm_compute; try reflexivity; discriminate.
Qed.

(** The two detection tables agree wherever they name the same setting:
    the same windows, the same minimum stay in a regime (5), the same
    confidence threshold, smoothing on in both.  The windows rise strictly
    and each is longer than the minimum stay; the decay factor lies
    strictly between 0 and 1, the confidence threshold between 1/2 and 1. *)
Theorem detection_tables_agree :
  let a := advanced_regime_engine.DETECTION_CONFIG in
  let b := regime_detector.DETECTION_CONFIG in
  advanced_regime_engine.estimation_windows a
  = regime_detector.lookback_windows b
  /\ advanced_regime_engine.regime_persistence a
     = regime_detector.minimum_regime_duration b
  /\ advanced_regime_engine.confidence_threshold a
     = regime_detector.confidence_threshold b
  /\ advanced_regime_engine.transition_smoothing a
     = regime_detector.transition_smoothing b
  /\ ForallOrdPairs Z.lt (advanced_regime_engine.estimation_windows a)
  /\ Forall (fun w => (advanced_regime_engine.regime_persistence a < w)%Z)
            (advanced_regime_engine.estimation_windows a)
  /\ (0 < advanced_regime_engine.decay_factor a
      /\ advanced_regime_engine.decay_factor a < 1)
  /\ (1 # 2 < advanced_regime_engine.confidence_threshold a
      /\ advanced_regime_engine.confidence_threshold a < 1).
Proof.
  cbv zeta. repeat split; try reflexivity.
  - repeat constructor.
  - repeat constructor.
Qed.

(** The regime parameters of the risk engine fit the detection tables: its
    momentum and lookback windows are, in rising order, exactly the
    detection windows; its low and high volatility thresholds are the calm
    and stress thresholds of the 3-state scheme; its normal correlation
    level is the stress correlation threshold, and its stress level lies
    above every correlation threshold of both schemes. *)
Theorem risk_regime_parameters_match_detection :
  let rp := risk_tables.REGIME_PARAMETERS in
  let m := risk_tables.momentum_signals rp in
  [ risk_tables.short_window m; risk_tables.lookback_window rp;
    risk_tables.long_window m ]
  = advanced_regime_engine.estimation_windows
      advanced_regime_engine.DETECTION_CONFIG
  /\ (forall lo hi calm stress,
         dict_get "low" (risk_tables.vol_threshold rp) = Some lo ->
         dict_get "high" (risk_tables.vol_threshold rp) = Some hi ->
         dict_get "calm" advanced_regime_engine.REGIME_PARAMETERS
         = Some calm ->
         dict_get "stress" advanced_regime_engine.REGIME_PARAMETERS
         = Some stress ->
         lo == advanced_regime_engine.volatility_threshold calm
         /\ hi == advanced_regime_engine.volatility_threshold stress)
  /\ (forall normal stress,
         dict_get "normal" (risk_tables.correlation_threshold rp)
         = Some normal ->
         dict_get "stress" advanced_regime_engine.REGIME_PARAMETERS
         = Some stress ->
         normal == advanced_regime_engine.correlation_threshold stress)
  /\ (forall level,
         dict_get "stress" (risk_tables.correlation_threshold rp)
         = Some level ->
         Forall (fun e => advanced_regime_engine.correlation_threshold e
                          < level)
                (dict_values advanced_regime_engine.REGIME_PARAMETERS)
         /\ Forall (fun e => regime_detector.correlation_threshold e < level)
                   (dict_values regime_detector.REGIME_PARAMETERS)).
Proof.
  cbv zeta. split; [reflexivity |]. split; [| split].
  - cbn. intros lo hi calm stress H1 H2 H3 H4.
    injection H1 as <-. injection H2 as <-.
    injection H3 as <-. injection H4 as <-.
    split; vm_compute; reflexivity.
  - cbn. intros normal stress H1 H2.
    injection H1 as <-. injection H2 as <-. vm_compute. reflexivity.
  - cbn. intros level H. injection H as <-.
    split; repeat constructor; vm_compute; reflexivity.
Qed.

Lemma risk_regime_parameters_match_detection_witness :
  0.10 == 0.10 /\ 0.20 == 0.20.
Proof.
  destruct risk_regime_parameters_match_detection as (_ & H & _).
  exact (H _ _ _ _ eq_refl eq_refl eq_refl eq_refl).
Defined.

(** The risk limits are coherent: the target volatility lies inside the
    accepted band, the scaling limits enclose 1 and every regime
    adjustment, the adjustments scale up in low volatility and down in high
    volatility and crisis, the VaR limit is below the drawdown limit and
    that below the expected-shortfall threshold, and every position limit
    lies strictly between 0 and 1. *)
Theorem risk_limits_coherent :
  let lim := risk_tables.RISK_LIMITS in
  let vol := risk_tables.volatility lim in
  let pf := risk_tables.portfolio lim in
  let pos := risk_tables.position lim in
  (fst (risk_tables.bands vol) < risk_tables.target vol
   /\ risk_tables.target vol < snd (risk_tables.bands vol))
  /\ (fst (risk_tables.scaling_limits vol) < 1
      /\ 1 < snd (risk_tables.scaling_limits vol))
  /\ Forall (fun f => fst (risk_tables.scaling_limits vol) <= f
                      /\ f <= snd (risk_tables.scaling_limits vol))
            (dict_values (risk_tables.regime_adjustments vol))
  /\ (forall low high crisis,
         dict_get "low_vol" (risk_tables.regime_adjustments vol) = Some low ->
         dict_get "high_vol" (risk_tables.regime_adjustments vol)
         = Some high ->
         dict_get "crisis" (risk_tables.regime_adjustments vol)
         = Some crisis ->
         crisis < high /\ high < 1 /\ 1 < low)
  /\ (0 < risk_tables.var_limit pf
      /\ risk_tables.var_limit pf < risk_tables.max_drawdown pf
      /\ risk_tables.max_drawdown pf < risk_tables.expected_shortfall pf
      /\ risk_tables.expected_shortfall pf < 1)
  /\ Forall (fun x => 0 < x /\ x < 1)
            [ risk_tables.min_single_name pos;
              risk_tables.max_single_name pos;
              risk_tables.max_sector pos;
              risk_tables.liquidity_threshold pos;
              risk_tables.concentration_limit pf ].
Proof.
  cbv zeta. split; [| split; [| split; [| split; [| split]]]].
  - split; vm_compute; reflexivity.
  - split; vm_compute; reflexivity.
  - repeat constructor; vm_compute; discriminate.
  - cbn. intros low high crisis H1 H2 H3.
    injection H1 as <-. injection H2 as <-. injection H3 as <-.
    repeat split; vm_compute; reflexivity.
  - repeat split; vm_compute; reflexivity.
  - repeat constructor; vm_compute; reflexivity.
Qed.

Lemma risk_limits_coherent_witness : 0.5 < 0.8 /\ 0.8 < 1 /\ 1 < 1.2.
Proof.
  destruct risk_limits_coherent as (_ & _ & _ & H & _).
  exact (H _ _ _ eq_refl eq_refl eq_refl).
Defined.

(** The risk scaling of the 3-state scheme and the scaling limits of the
    risk engine do not fit for one regime: the factor of a regime is within
    the scaling limits exactly when the regime is not crisis, whose factor
    0.4 is below the lower limit 0.5, the value the risk engine's own
    adjustment table gives crisis. *)
Theorem crisis_scaling_below_scaling_limits (name : string)
        (e : advanced_regime_engine.regime_entry) :
  let limits :=
    risk_tables.scaling_limits
      (risk_tables.volatility risk_tables.RISK_LIMITS) in
  dict_get name advanced_regime_engine.REGIME_PARAMETERS = Some e ->
  (advanced_regime_engine.risk_scaling e <= snd limits)
  /\ (fst limits <= advanced_regime_engine.risk_scaling e
      <-> name <> "crisis"%string)
  /\ (name = "crisis"%string ->
      advanced_regime_engine.risk_scaling e < fst limits
      /\ dict_get "crisis"
                  (risk_tables.regime_adjustments
                     (risk_tables.volatility risk_tables.RISK_LIMITS))
         = Some (fst limits)).
Proof.
  cbv zeta. cbn [dict_get advanced_regime_engine.REGIME_PARAMETERS].
  destruct (String.eqb name "calm") eqn:E1.
  { apply String.eqb_eq in E1. subst name. intros H. injection H as <-.
    split; [vm_compute; discriminate |]. split.
    - split; [discriminate | intros _; vm_compute; discriminate].
    - discriminate. }
  destruct (String.eqb name "stress") eqn:E2.
  { apply String.eqb_eq in E2. subst name. intros H. injection H as <-.
    split; [vm_compute; discriminate |]. split.
    - split; [discriminate | intros _; vm_compute; discriminate].
    - discriminate. }
  destruct (String.eqb name "crisis") eqn:E3; [| discriminate].
  apply String.eqb_eq in E3. subst name. intros H. injection H as <-.
  split; [vm_compute; discriminate |]. split.
  - split.
    + intros Hle. exfalso. revert Hle. vm_compute. intros Hle.
      apply Hle. reflexivity.
    + intros Hne. exfalso. apply Hne. reflexivity.
  - intros _. split; [vm_compute; reflexivity | reflexivity].
Qed.

Lemma crisis_scaling_below_scaling_limits_witness : 0.4 < 0.5.
Proof.
  destruct (crisis_scaling_below_scaling_limits
              "crisis"
              {| advanced_regime_engine.probability := 0.15;
                 advanced_regime_engine.volatility_threshold := 0.35;
                 advanced_regime_engine.correlation_threshold := 0.8;
                 advanced_regime_engine.risk_scaling := 0.4;
                 advanced_regime_engine.description := "Crisis Conditions" |}
              eq_refl) as (_ & _ & H).
  destruct (H eq_refl) as [Hlt _]. exact Hlt.
Defined.

(** The utilization alerts fire before the limits they watch: a
    concentration at or above the concentration limit is above the alert
    level (80% of the limit), a VaR at or above the VaR limit is above its
    alert level (90% of the limit), also when the levels are computed on
    doubles; the intraday drawdown alert is below the drawdown limit; and
    one position at the single-name cap stays below the concentration alert
    level. *)
Theorem alerts_fire_before_limits (share_c share_v dd : Q) :
  monitoring_threshold "position_alerts" "concentration" = Some share_c ->
  monitoring_threshold "position_alerts" "var_utilization" = Some share_v ->
  monitoring_threshold "intraday_alerts" "drawdown" = Some dd ->
  let pf := risk_tables.portfolio risk_tables.RISK_LIMITS in
  let conc := risk_tables.concentration_limit pf in
  let var := risk_tables.var_limit pf in
  (forall x, conc <= x -> alert_level share_c conc < x)
  /\ (forall x, var <= x -> alert_level share_v var < x)
  /\ Float64.ltb (Float64.mul (Float64.of_literal share_c)
                              (Float64.of_literal conc))
                 (Float64.of_literal conc) = true
  /\ Float64.ltb (Float64.mul (Float64.of_literal share_v)
                              (Float64.of_literal var))
                 (Float64.of_literal var) = true
  /\ dd < risk_tables.max_drawdown pf
  /\ risk_tables.max_single_name
       (risk_tables.position risk_tables.RISK_LIMITS)
     < alert_level share_c conc.
Proof.
  cbn. intros H1 H2 H3. injection H1 as <-. injection H2 as <-.
  injection H3 as <-.
  split; [| split; [| repeat split; vm_compute; reflexivity]].
  - intros x Hx. apply Qlt_le_trans with (2 := Hx). vm_compute. reflexivity.
  - intros x Hx. apply Qlt_le_trans with (2 := Hx). vm_compute. reflexivity.
Qed.

Lemma alerts_fire_before_limits_witness :
  alert_level 0.8 0.25 < 0.30.
Proof.
  destruct (alerts_fire_before_limits 0.8 0.9 0.02 eq_refl eq_refl eq_refl)
    as (H & _).
  apply (H 0.30). vm_compute. discriminate.
Defined.

(** The copula table: an entry carries a [parameter_range] exactly when its
    tail dependence is one-sided; every range starts at a finite,
    non-negative end and is open-ended ([float('inf')]); and besides
    description and tail dependence every entry carries exactly one more
    key. *)
Theorem copula_table_structure :
  Forall
    (fun entry =>
       (copula_tables.tail_dependence entry = "symmetric"%string
        <-> copula_tables.parameter_range entry = None)
       /\ (forall lo hi,
              copula_tables.parameter_range entry = Some (lo, hi) ->
              hi = copula_tables.Inf
              /\ exists q, lo = copula_tables.Fin q /\ 0 <= q)
       /\ (List.length
             (filter (fun present : bool => present)
                     [ isSome (copula_tables.estimation entry);
                       isSome (copula_tables.degrees_freedom entry);
                       isSome (copula_tables.parameter_range entry) ])
           = 1%nat))
    (dict_values copula_tables.COPULA_TYPES).
Proof.
  assert (Hrange :
            forall q lo hi,
              0 <= q ->
              Some (copula_tables.Fin q, copula_tables.Inf) = Some (lo, hi) ->
              hi = copula_tables.Inf
              /\ exists q', lo = copula_tables.Fin q' /\ 0 <= q').
  { intros q lo hi Hq H. injection H as <- <-.
    split; [reflexivity |]. exists q. split; [reflexivity | exact Hq]. }
  cbn. repeat apply Forall_cons; try apply Forall_nil; cbn.
  - split; [tauto |]. split; [intros lo hi H; discriminate H | reflexivity].
  - split; [tauto |]. split; [intros lo hi H; discriminate H | reflexivity].
  - split; [split; discriminate |].
    split; [| reflexivity].
    intros lo hi. apply Hrange. vm_compute. discriminate.
  - split; [split; discriminate |].
    split; [| reflexivity].
    intros lo hi. apply Hrange. vm_compute. discriminate.
Qed.

(** Copula and GARCH family names do not mix: no name is a key of both
    tables, and no distribution string of a GARCH specification is a key of
    the GARCH table, so a distribution name passed as [garch_type] finds no
    entry.  Every specification is a GARCH(1,1) estimated by maximum
    likelihood, each with its own distribution. *)
Theorem family_names_do_not_mix :
  (forall k,
      In k (dict_keys copula_tables.COPULA_TYPES) ->
      dict_get k copula_tables.GARCH_SPECIFICATIONS = None)
  /\ (forall k,
         In k (dict_keys copula_tables.GARCH_SPECIFICATIONS) ->
         dict_get k copula_tables.COPULA_TYPES = None)
  /\ (forall spec,
         In spec (dict_values copula_tables.GARCH_SPECIFICATIONS) ->
         dict_get (copula_tables.distribution spec)
                  copula_tables.GARCH_SPECIFICATIONS = None
         /\ copula_tables.vol_model spec = "GARCH(1,1)"%string
         /\ copula_tables.garch_estimation spec
            = "maximum likelihood"%string)
  /\ NoDup (map copula_tables.distribution
                (dict_values copula_tables.GARCH_SPECIFICATIONS)).
Proof.
  split; [| split; [| split]].
  - cbn. intros k [<- | [<- | [<- | [<- | []]]]]; reflexivity.
  - cbn. intros k [<- | [<- | [<- | []]]]; reflexivity.
  - cbn. intros spec [<- | [<- | [<- | []]]]; repeat split; reflexivity.
  - distinct_keys.
Qed.

Lemma family_names_do_not_mix_witness :
  dict_get "gaussian" copula_tables.GARCH_SPECIFICATIONS = None.
Proof.
  destruct family_names_do_not_mix as (H & _).
  apply H. simpl. tauto.
Defined.

(** Comparing any two numbers of the regime and risk tables gives the same
    answer on the doubles the interpreter stores as on the decimals the
    source spells: no two different decimals share a double, and the order
    is kept. *)
Theorem doubles_compare_like_decimals (x y : Q) :
  In x table_literals -> In y table_literals ->
  (x < y <-> Float64.ltb (Float64.of_literal x) (Float64.of_literal y) = true)
  /\ (x == y
      <-> Float64.eqb (Float64.of_literal x) (Float64.of_literal y) = true).
Proof.
  intros Hx Hy.
  assert (Hall :
            forallb
              (fun a =>
                 forallb
                   (fun b =>
                      Bool.eqb (Qltb a b)
                               (Float64.ltb (Float64.of_literal a)
                                            (Float64.of_literal b))
                      && Bool.eqb (Qeq_bool a b)
                                  (Float64.eqb (Float64.of_literal a)
                                               (Float64.of_literal b)))
                   table_literals)
              table_literals = true) by (vm_compute; reflexivity).
  rewrite forallb_forall in Hall. specialize (Hall x Hx).
  rewrite forallb_forall in Hall. specialize (Hall y Hy).
  apply andb_true_iff in Hall. destruct Hall as [Hlt Heq].
  apply Bool.eqb_prop in Hlt. apply Bool.eqb_prop in Heq.
  split.
  - rewrite <- Hlt. split.
    + intros H. unfold Qltb. destruct (Qle_bool y x) eqn:E; [| reflexivity].
      apply Qle_bool_iff in E. exfalso. exact (Qlt_not_le _ _ H E).
    + apply Qltb_true.
  - rewrite <- Heq. symmetry. apply Qeq_bool_iff.
Qed.

Lemma doubles_compare_like_decimals_witness :
  Float64.ltb (Float64.of_literal 0.05) (Float64.of_literal 0.25) = true.
Proof.
  destruct (doubles_compare_like_decimals 0.05 0.25) as [H _].
  - vm_compute. tauto.
  - vm_compute. tauto.
  - apply H. vm_compute. reflexivity.
Defined.
